(** * A shallow embedding of the PySD REST service ([src/main.py])

    The service keeps one process-wide dictionary [models] from model
    identifiers to engine objects and exposes handlers over it:
    [upload_model], [load_model], [run_model], [get_components],
    [set_parameters] and [reset_model] are embedded here; [list_models]
    only reads the keys of the dictionary and takes part in no property
    below.  The simulation engine (the [pysd] package), the [pandas]
    frame it returns and the operating system are external: they appear
    here as an interface whose operations the handlers call.

    Conventions of the embedding:
    - a Python exception is a value of [exn]; a handler is a computation
      in the state-and-exception monad [M] over the [World];
    - the registry is a [gmap string Engine]; an engine object is held by
      exactly one registry key, so its in-place mutation by the engine is
      written back under that key;
    - every call that crosses into the engine is recorded in [trace];
    - [uuid.uuid4()] is a draw made by the caller of the handler and is
      passed in as an argument;
    - paths follow [posixpath]; strings are byte strings and [lower]
      acts on the ASCII letters, which is all that the comparison with
      [".mdl"] and [".xmile"] depends on. *)

From Stdlib Require Import ZArith Ascii String List.
From stdpp Require Import base option list strings gmap fin_maps.

Local Open Scope Z_scope.
Local Open Scope string_scope.
Local Open Scope list_scope.

(** ** Python helpers used by the handlers *)

Module Py.

(** [str.rfind(c)]: index of the last occurrence of [c], or [-1]. *)
Fixpoint rfind_from (p : string) (c : ascii) (i last : Z) : Z :=
  match p with
  | EmptyString => last
  | String a p' => rfind_from p' c (i + 1) (if Ascii.eqb a c then i else last)
  end.

Definition rfind (p : string) (c : ascii) : Z := rfind_from p c 0 (-1).

(** [p[:n]] and [p[n:]] for [0 <= n]. *)
Definition slice_to (p : string) (n : Z) : string :=
  String.substring 0 (Z.to_nat n) p.

Definition slice_from (p : string) (n : Z) : string :=
  String.substring (Z.to_nat n) (String.length p - Z.to_nat n) p.

(** [posixpath.splitext]: the extension starts at the last dot of the
    last path component, unless that component has only leading dots
    before it. *)
Definition splitext (p : string) : string * string :=
  let sepIndex := rfind p "/"%char in
  let dotIndex := rfind p "."%char in
  if (dotIndex >? sepIndex)
     && existsb
          (fun i => negb (bool_decide (String.get i p = Some "."%char)))
          (seq (Z.to_nat (sepIndex + 1)) (Z.to_nat (dotIndex - (sepIndex + 1))))
  then (slice_to p dotIndex, slice_from p dotIndex)
  else (p, "").

(** [str.lower] on the ASCII letters; other bytes are kept. *)
Definition lower_char (c : ascii) : ascii :=
  let n := nat_of_ascii c in
  if (65 <=? n)%nat && (n <=? 90)%nat then ascii_of_nat (n + 32) else c.

Fixpoint lower (s : string) : string :=
  match s with
  | EmptyString => EmptyString
  | String c s' => String (lower_char c) (lower s')
  end.

(** A Python [dict] with string keys: insertion-ordered, keys unique.
    [d[k] = v] keeps the position of a key already present. *)
Definition dict (V : Type) : Type := list (string * V).

Fixpoint dict_set {V} (k : string) (v : V) (d : dict V) : dict V :=
  match d with
  | [] => [(k, v)]
  | (k', v') :: d' =>
      if decide (k = k') then (k, v) :: d' else (k', v') :: dict_set k v d'
  end.

Definition keys {V} (d : dict V) : list string := d.*1.

(** [x or {}] for an optional dictionary: [None] and the empty
    dictionary are both falsy. *)
Definition or_empty {V} (x : option (dict V)) : dict V :=
  match x with
  | Some (kv :: d) => kv :: d
  | _ => []
  end.

(** [x or y] for an optional string: [None] and [""] are both falsy. *)
Definition or_str (x : option string) (y : string) : string :=
  match x with
  | Some (String c s) => String c s
  | _ => y
  end.

(** The names of a list in order of first occurrence. *)
Fixpoint first_occurrences (l : list string) : list string :=
  match l with
  | [] => []
  | k :: l' => k :: filter (λ k', k' ≠ k) (first_occurrences l')
  end.

End Py.

(** ** Values exchanged with the engine *)

(** A [pandas.DataFrame] of shape (rows, columns): the index, the column
    labels in column order, and the cell at a row and column position. *)
Record DataFrame (Num : Type) := {
  df_index : list Num;
  df_columns : list string;
  df_cell : nat → nat → Num;
}.
Arguments df_index {Num}.
Arguments df_columns {Num}.
Arguments df_cell {Num}.

(** The four groups read off [engine.components]. *)
Record Structure := {
  stocks : list string;
  flows : list string;
  auxiliaries : list string;
  constants : list string;
}.

(** The object [engine.components]: what reading each of its four
    attributes gives, the message of the exception on the left when the
    read raises. *)
Record Components := {
  comp_stocks : string + list string;
  comp_flows : string + list string;
  comp_auxiliaries : string + list string;
  comp_constants : string + list string;
}.

(** [df.to_dict(orient="list")]: one entry per column position, in column
    order, each holding that column's cells from the first row to the
    last. *)
Definition column_values {Num} (df : DataFrame Num) (j : nat) : list Num :=
  map (λ i, df_cell df i j) (seq 0 (length (df_index df))).

Definition to_dict {Num} (df : DataFrame Num) : Py.dict (list Num) :=
  foldl (λ d jk, Py.dict_set jk.2 (column_values df jk.1) d) []
        (imap (λ j k, (j, k)) (df_columns df)).

(** ** Request schemas *)

Record LoadModelRequest := {
  lm_path : string;
  lm_fileType : string;
  lm_modelId : option string;
}.

Record RunModelRequest (Num : Type) := {
  rm_modelId : string;
  rm_params : option (Py.dict Num);
  rm_returnColumns : option (list string);
}.
Arguments rm_modelId {Num}.
Arguments rm_params {Num}.
Arguments rm_returnColumns {Num}.

Record SetParametersRequest (Num : Type) := {
  sp_modelId : string;
  sp_parameters : Py.dict Num;
}.
Arguments sp_modelId {Num}.
Arguments sp_parameters {Num}.

Record ResetModelRequest := { rs_modelId : string }.

(** An uploaded file: its client-side name ([file.filename]) and its
    bytes ([file.file]). *)
Record UploadFile := {
  filename : string;
  file : string;
}.

(** ** Exceptions and responses *)

Inductive exn :=
  | HTTPException (status_code : Z) (detail : string)
  | Exception (message : string).

(** The JSON bodies the handlers return. *)
Inductive Body (Num : Type) :=
  | ModelIdBody (message modelId : string)
  | TableBody (table : Py.dict (list Num))
  | StructureBody (s : Structure)
  | MessageBody (message : string).
Arguments ModelIdBody {Num}.
Arguments TableBody {Num}.
Arguments StructureBody {Num}.
Arguments MessageBody {Num}.

(** What the client sees: FastAPI answers an [HTTPException] with its
    status code, any other escaping exception with 500, and a returned
    body with 200. *)
Definition status {A} (r : exn + A) : Z :=
  match r with
  | inr _ => 200
  | inl (HTTPException c _) => c
  | inl (Exception _) => 500
  end.

Definition is_error {A} (r : exn + A) : bool :=
  match r with inl _ => true | inr _ => false end.

(** ** The external interfaces *)

(** The [pysd] engine.  A raised exception is returned as its message on
    the left.  Parsing reads the file system ([Env]); running and
    parameter setting act on the engine object and may change it. *)
Class PySD (Engine Num Env : Type) := {
  read_vensim : string → Env → (string + Engine) * Env;
  read_xmile : string → Env → (string + Engine) * Env;
  run : Engine → Py.dict Num → option (list string) →
        (string + DataFrame Num) * Engine;
  components : Engine → string + Components;
  set_components : Engine → Py.dict Num → (string + ()) * Engine;
}.

(** The operating system and the web framework: [tempfile.mkdtemp],
    writing the upload to a path ([open] and [shutil.copyfileobj]), and
    [str(e)] of an [HTTPException]. *)
Class Runtime (Env : Type) := {
  mkdtemp : Env → (string + string) * Env;
  write_file : string → string → Env → (string + ()) * Env;
  str_http : Z → string → string;
}.

(** [posixpath.join] of two components. *)
Definition path_join (a b : string) : string :=
  match b with
  | String "/" _ => b
  | _ =>
      if bool_decide (a = "") || bool_decide (Py.slice_from a (Z.of_nat (String.length a) - 1) = "/")
      then a +:+ b
      else a +:+ "/" +:+ b
  end.

(** Calls made into the engine, in the order they happen. *)
Inductive Call (Engine Num : Type) :=
  | CallReadVensim (path : string)
  | CallReadXmile (path : string)
  | CallRun (engine : Engine) (params : Py.dict Num)
            (return_columns : option (list string))
  | CallComponents (engine : Engine)
  | CallAttribute (engine : Engine) (name : string)
  | CallSetComponents (engine : Engine) (params : Py.dict Num).
Arguments CallReadVensim {Engine Num}.
Arguments CallReadXmile {Engine Num}.
Arguments CallRun {Engine Num}.
Arguments CallComponents {Engine Num}.
Arguments CallAttribute {Engine Num}.
Arguments CallSetComponents {Engine Num}.

(** The state of the process and of its surroundings. *)
Record World (Engine Num Env : Type) := {
  models : gmap string Engine;
  env : Env;
  trace : list (Call Engine Num);
}.
Arguments models {Engine Num Env}.
Arguments env {Engine Num Env}.
Arguments trace {Engine Num Env}.
Arguments Build_World {Engine Num Env}.

(** ** The handlers *)

Section Service.
Context {Engine Num Env : Type}.
Context `{!PySD Engine Num Env, !Runtime Env}.

#[local] Abbreviation World := (World Engine Num Env).
#[local] Abbreviation Body := (Body Num).

(** Computations that read and change the world and may raise. *)
Definition M (A : Type) : Type := World → (exn + A) * World.

#[local] Instance M_ret : MRet M := λ A x w, (inr x, w).
#[local] Instance M_bind : MBind M := λ A B f m w,
  match m w with
  | (inr x, w') => f x w'
  | (inl e, w') => (inl e, w')
  end.

Definition raise {A} (e : exn) : M A := λ w, (inl e, w).

(** [try: body  except Exception as e: handler(e)]: what [body] did to
    the world before raising stays done. *)
Definition try_except {A} (body : M A) (handler : exn → M A) : M A := λ w,
  match body w with
  | (inl e, w') => handler e w'
  | r => r
  end.

(** [str(e)] *)
Definition str (e : exn) : string :=
  match e with
  | HTTPException c d => str_http c d
  | Exception m => m
  end.

(** An operating-system call: changes [env], raises on failure. *)
Definition os_call {A} (f : Env → (string + A) * Env) : M A := λ w,
  let '(r, env') := f (env w) in
  let w' := Build_World (models w) env' (trace w) in
  match r with
  | inl m => (inl (Exception m), w')
  | inr x => (inr x, w')
  end.

(** A parser call: as [os_call], and recorded in the trace. *)
Definition parse_call (c : Call Engine Num)
    (f : Env → (string + Engine) * Env) : M Engine := λ w,
  let '(r, env') := f (env w) in
  let w' := Build_World (models w) env' (trace w ++ [c]) in
  match r with
  | inl m => (inl (Exception m), w')
  | inr x => (inr x, w')
  end.

(** A method call on the engine object held under [model_id]: the
    object's new state replaces the old one under that key. *)
Definition engine_call {A} (model_id : string) (c : Call Engine Num)
    (r : (string + A) * Engine) : M A := λ w,
  let w' := Build_World (<[model_id := r.2]> (models w)) (env w) (trace w ++ [c]) in
  match r.1 with
  | inl m => (inl (Exception m), w')
  | inr x => (inr x, w')
  end.

(** [models[model_id] = engine] *)
Definition models_set (model_id : string) (engine : Engine) : M () := λ w,
  (inr (), Build_World (<[model_id := engine]> (models w)) (env w) (trace w)).

(** [del models[model_id]] *)
Definition models_del (model_id : string) : M () := λ w,
  (inr (), Build_World (delete model_id (models w)) (env w) (trace w)).

(** [model_id in models] *)
Definition models_contains (model_id : string) : M bool := λ w,
  (inr (bool_decide (is_Some (models w !! model_id))), w).

(** The exception [get_model] raises. *)
Definition not_found (model_id : string) : exn :=
  HTTPException 404 ("Model '" +:+ model_id +:+ "' not found").

Definition get_model (model_id : string) : M Engine := λ w,
  match models w !! model_id with
  | None => (inl (not_found model_id), w)
  | Some engine => (inr engine, w)
  end.

Definition upload_model (f : UploadFile) (uuid4 : string) : M Body :=
  try_except
    (let suffix := Py.lower (Py.splitext (filename f)).2 in
     if bool_decide (suffix ∉ [".mdl"; ".xmile"]) then
       raise (HTTPException 400 "Only .mdl and .xmile files are supported")
     else
       temp_dir ← os_call mkdtemp;
       let file_path := path_join temp_dir (filename f) in
       _ ← os_call (write_file file_path (file f));
       engine ← (if bool_decide (suffix = ".mdl")
                 then parse_call (CallReadVensim file_path) (read_vensim file_path)
                 else parse_call (CallReadXmile file_path) (read_xmile file_path));
       let model_id := uuid4 in
       _ ← models_set model_id engine;
       mret (ModelIdBody "Model uploaded successfully" model_id))
    (λ e, raise (HTTPException 500 (str e))).

Definition load_model (request : LoadModelRequest) (uuid4 : string) : M Body :=
  try_except
    (let model_id := Py.or_str (lm_modelId request) uuid4 in
     engine ← (if bool_decide (lm_fileType request = "vensim")
               then parse_call (CallReadVensim (lm_path request))
                               (read_vensim (lm_path request))
               else if bool_decide (lm_fileType request = "xmile")
               then parse_call (CallReadXmile (lm_path request))
                               (read_xmile (lm_path request))
               else raise (HTTPException 400 "Unsupported fileType"));
     _ ← models_set model_id engine;
     mret (ModelIdBody "Model loaded successfully" model_id))
    (λ e, raise (HTTPException 400 (str e))).

Definition run_model (request : RunModelRequest Num) : M Body :=
  engine ← get_model (rm_modelId request);
  try_except
    (let params := Py.or_empty (rm_params request) in
     results ← engine_call (rm_modelId request)
                 (CallRun engine params (rm_returnColumns request))
                 (run engine params (rm_returnColumns request));
     mret (TableBody (to_dict results)))
    (λ e, raise (HTTPException 500 (str e))).

Definition get_components (model_id : string) : M Body :=
  engine ← get_model model_id;
  try_except
    (structure ← engine_call model_id (CallComponents engine)
                   (components engine, engine);
     the_stocks ← engine_call model_id (CallAttribute engine "stocks")
                    (comp_stocks structure, engine);
     the_flows ← engine_call model_id (CallAttribute engine "flows")
                   (comp_flows structure, engine);
     the_auxiliaries ← engine_call model_id (CallAttribute engine "auxiliaries")
                         (comp_auxiliaries structure, engine);
     the_constants ← engine_call model_id (CallAttribute engine "constants")
                       (comp_constants structure, engine);
     mret (StructureBody {| stocks := the_stocks;
                            flows := the_flows;
                            auxiliaries := the_auxiliaries;
                            constants := the_constants |}))
    (λ e, raise (HTTPException 500 (str e))).

Definition set_parameters (request : SetParametersRequest Num) : M Body :=
  engine ← get_model (sp_modelId request);
  try_except
    (_ ← engine_call (sp_modelId request)
           (CallSetComponents engine (sp_parameters request))
           (set_components engine (sp_parameters request));
     mret (MessageBody "Parameters set successfully"))
    (λ e, raise (HTTPException 500 (str e))).

Definition reset_model (request : ResetModelRequest) : M Body :=
  present ← models_contains (rs_modelId request);
  if present : bool then
    _ ← models_del (rs_modelId request);
    mret (MessageBody ("Model '" +:+ rs_modelId request +:+ "' removed from memory"))
  else
    raise (HTTPException 404 "Model ID not found").

(** What the five reads of a describe structure give on an engine, the
    first exception raised winning, and the calls they make up to it. *)
Definition read_structure (c : Components) : string + Structure :=
  match comp_stocks c with
  | inl m => inl m
  | inr the_stocks =>
      match comp_flows c with
      | inl m => inl m
      | inr the_flows =>
          match comp_auxiliaries c with
          | inl m => inl m
          | inr the_auxiliaries =>
              match comp_constants c with
              | inl m => inl m
              | inr the_constants =>
                  inr {| stocks := the_stocks;
                         flows := the_flows;
                         auxiliaries := the_auxiliaries;
                         constants := the_constants |}
              end
          end
      end
  end.

Definition describe (engine : Engine) : string + Structure :=
  match components engine with
  | inl m => inl m
  | inr c => read_structure c
  end.

Definition describe_calls (engine : Engine) : list (Call Engine Num) :=
  CallComponents engine ::
  match components engine with
  | inl _ => []
  | inr c =>
      CallAttribute engine "stocks" ::
      match comp_stocks c with
      | inl _ => []
      | inr _ =>
          CallAttribute engine "flows" ::
          match comp_flows c with
          | inl _ => []
          | inr _ =>
              CallAttribute engine "auxiliaries" ::
              match comp_auxiliaries c with
              | inl _ => []
              | inr _ => [CallAttribute engine "constants"]
              end
          end
      end
  end.

(** The four answers on an absent identifier. *)
Definition answers_not_found (w : World) (id : string) : Prop :=
  (∀ params cols,
     run_model {| rm_modelId := id; rm_params := params;
                  rm_returnColumns := cols |} w
     = (inl (not_found id), w))
  ∧ get_components id w = (inl (not_found id), w)
  ∧ (∀ ps,
       set_parameters {| sp_modelId := id; sp_parameters := ps |} w
       = (inl (not_found id), w))
  ∧ reset_model {| rs_modelId := id |} w
    = (inl (HTTPException 404 "Model ID not found"), w).

(** ** Requests as data, and sessions *)

Inductive Request :=
  | ReqUpload (f : UploadFile) (uuid4 : string)
  | ReqLoad (request : LoadModelRequest) (uuid4 : string)
  | ReqRun (request : RunModelRequest Num)
  | ReqComponents (model_id : string)
  | ReqSetParameters (request : SetParametersRequest Num)
  | ReqReset (request : ResetModelRequest).

Definition handle (r : Request) : M Body :=
  match r with
  | ReqUpload f uuid4 => upload_model f uuid4
  | ReqLoad request uuid4 => load_model request uuid4
  | ReqRun request => run_model request
  | ReqComponents model_id => get_components model_id
  | ReqSetParameters request => set_parameters request
  | ReqReset request => reset_model request
  end.

(** The world after a sequence of requests, whatever their answers. *)
Definition handle_all (rs : list Request) (w : World) : World :=
  foldl (λ w r, (handle r w).2) w rs.

(** The identifier under which a request stores a model when it
    succeeds. *)
Definition stores_under (r : Request) : option string :=
  match r with
  | ReqUpload _ uuid4 => Some uuid4
  | ReqLoad request uuid4 => Some (Py.or_str (lm_modelId request) uuid4)
  | _ => None
  end.

(** ** The failure taxonomy of the specification

    The classes are the specification's; [failure_class] names the class
    of the step at which a request fails: a referenced identifier that is
    absent ([NotFound]), an extension or declared type that is not
    recognised ([UnsupportedFormat]), a parser that rejects the source
    ([ParseError]), an engine method that raises ([EngineFailure]).  A
    failure of the operating system while staging an upload belongs to no
    class. *)
Inductive ErrorClass :=
  | NotFound | UnsupportedFormat | ParseError
  | DuplicateId | InvalidOverride | EngineFailure.

Definition class_of_parse (r : (string + Engine) * Env) : option ErrorClass :=
  match r.1 with
  | inl _ => Some ParseError
  | inr _ => None
  end.

Definition class_of_engine {A} (r : string + A) : option ErrorClass :=
  match r with
  | inl _ => Some EngineFailure
  | inr _ => None
  end.

Definition failure_class (r : Request) (w : World) : option ErrorClass :=
  match r with
  | ReqUpload f _ =>
      let suffix := Py.lower (Py.splitext (filename f)).2 in
      if bool_decide (suffix ∉ [".mdl"; ".xmile"]) then Some UnsupportedFormat
      else
        match mkdtemp (env w) with
        | (inl _, _) => None
        | (inr temp_dir, env1) =>
            let file_path := path_join temp_dir (filename f) in
            match write_file file_path (file f) env1 with
            | (inl _, _) => None
            | (inr _, env2) =>
                if bool_decide (suffix = ".mdl")
                then class_of_parse (read_vensim file_path env2)
                else class_of_parse (read_xmile file_path env2)
            end
        end
  | ReqLoad request _ =>
      if bool_decide (lm_fileType request = "vensim")
      then class_of_parse (read_vensim (lm_path request) (env w))
      else if bool_decide (lm_fileType request = "xmile")
      then class_of_parse (read_xmile (lm_path request) (env w))
      else Some UnsupportedFormat
  | ReqRun request =>
      match models w !! rm_modelId request with
      | None => Some NotFound
      | Some engine =>
          class_of_engine
            (run engine (Py.or_empty (rm_params request))
                 (rm_returnColumns request)).1
      end
  | ReqComponents model_id =>
      match models w !! model_id with
      | None => Some NotFound
      | Some engine => class_of_engine (describe engine)
      end
  | ReqSetParameters request =>
      match models w !! sp_modelId request with
      | None => Some NotFound
      | Some engine =>
          class_of_engine (set_components engine (sp_parameters request)).1
      end
  | ReqReset request =>
      match models w !! rs_modelId request with
      | None => Some NotFound
      | Some _ => None
      end
  end.

(** The variable names of a model's structure. *)
Definition structure_names (s : Structure) : list string :=
  stocks s ++ flows s ++ auxiliaries s ++ constants s.

(** The most calls into the engine one request can make. *)
Definition max_calls (r : Request) : nat :=
  match r with
  | ReqComponents _ => 5
  | ReqReset _ => 0
  | _ => 1
  end.


End Service.

(** ** A small concrete engine, for evaluating the handlers

    The engine object is the current value of the model's one constant,
    [rate]; the model has one stock, [X].  The parsers accept any
    non-empty path.  A run first applies its overrides as
    [set_components] does, and they stay applied; it then yields three
    samples, indexed by time, of the requested columns in the requested
    order (of [X] and [rate] when none is requested), and raises on a
    requested column that is not a variable of the model. *)
Module Demo.

Definition demo_value (rate : Z) (name : string) (i : nat) : Z :=
  if bool_decide (name = "X") then rate * Z.of_nat i else rate.

Definition demo_frame (rate : Z) (cols : list string) : DataFrame Z := {|
  df_index := [0; 1; 2];
  df_columns := cols;
  df_cell := λ i j, demo_value rate (nth j cols "") i;
|}.

Definition demo_parse (path : string) (env : ()) : (string + Z) * () :=
  if bool_decide (path = "") then (inl "No such file", env)
  else (inr (Z.of_nat (String.length path)), env).

Definition demo_structure : Structure := {|
  stocks := ["X"];
  flows := [];
  auxiliaries := [];
  constants := ["rate"];
|}.

Definition demo_components : Components := {|
  comp_stocks := inr ["X"];
  comp_flows := inr [];
  comp_auxiliaries := inr [];
  comp_constants := inr ["rate"];
|}.

Definition demo_set_components (engine : Z) (params : Py.dict Z)
    : (string + ()) * Z :=
  match params with
  | [("rate", v)] => (inr (), v)
  | [] => (inr (), engine)
  | _ => (inl "unknown parameter", engine)
  end.

Definition demo_run (engine : Z) (params : Py.dict Z)
    (return_columns : option (list string)) : (string + DataFrame Z) * Z :=
  match demo_set_components engine params with
  | (inl m, engine') => (inl m, engine')
  | (inr _, engine') =>
      let cols := default ["X"; "rate"] return_columns in
      if forallb (λ c, bool_decide (c ∈ ["X"; "rate"])) cols
      then (inr (demo_frame engine' cols), engine')
      else (inl "unknown column", engine')
  end.

#[export] Instance demo_pysd : PySD Z Z () := {|
  read_vensim := demo_parse;
  read_xmile := demo_parse;
  run := demo_run;
  components := λ _, inr demo_components;
  set_components := demo_set_components;
|}.

(** The decimal digits of a three-digit status code. *)
Definition demo_digit (n : Z) : string :=
  match n with
  | 0 => "0" | 1 => "1" | 2 => "2" | 3 => "3" | 4 => "4"
  | 5 => "5" | 6 => "6" | 7 => "7" | 8 => "8" | _ => "9"
  end.

Definition demo_status_text (c : Z) : string :=
  demo_digit (c / 100 mod 10) +:+ demo_digit (c / 10 mod 10) +:+ demo_digit (c mod 10).

(** [str(e)] of an [HTTPException] is its status code, a colon and a
    space, and its detail. *)
#[export] Instance demo_runtime : Runtime () := {|
  mkdtemp := λ env, (inr "/tmp/tmpab12cd", env);
  write_file := λ _ _ env, (inr (), env);
  str_http := λ c d, demo_status_text c +:+ ": " +:+ d;
|}.

(** A world holding one model, under the identifier ["m"]. *)
Definition one_model : World Z Z () := {|
  models := {["m" := 5]};
  env := ();
  trace := [];
|}.

Definition empty_world : World Z Z () := {|
  models := ∅;
  env := ();
  trace := [];
|}.

End Demo.

(** ** Proof automation *)

(** Unfolds the monad down to functions on worlds. *)
Ltac unfold_M :=
  unfold try_except, engine_call, parse_call, os_call, models_set,
    models_del, models_contains, get_model, raise, mbind, M_bind, mret,
    M_ret in *.

Ltac unfold_handlers :=
  unfold handle, upload_model, load_model, run_model, get_components,
    set_parameters, reset_model in *;
  unfold_M.

(** Case analysis on what the operating system and the parsers answer. *)
Ltac destruct_calls :=
  cbn [fst snd models env trace];
  repeat match goal with
    | |- context [mkdtemp ?x] =>
        let m := fresh "m" in let d := fresh "temp_dir" in let v := fresh "env" in
        destruct (mkdtemp x) as [[m|d] v] eqn:?; cbn [fst snd models env trace]
    | |- context [write_file ?p ?c ?x] =>
        let m := fresh "m" in let v := fresh "env" in
        destruct (write_file p c x) as [[m|[]] v] eqn:?; cbn [fst snd models env trace]
    | |- context [read_vensim ?p ?x] =>
        let m := fresh "m" in let e := fresh "engine" in let v := fresh "env" in
        destruct (read_vensim p x) as [[m|e] v] eqn:?; cbn [fst snd models env trace]
    | |- context [read_xmile ?p ?x] =>
        let m := fresh "m" in let e := fresh "engine" in let v := fresh "env" in
        destruct (read_xmile p x) as [[m|e] v] eqn:?; cbn [fst snd models env trace]
    end.

(** * Properties *)

Example splitext_mdl : Py.splitext "teacup.mdl" = ("teacup", ".mdl").
Proof. reflexivity. Qed.

Example splitext_dotfile : Py.splitext "dir.d/.hidden" = ("dir.d/.hidden", "").
Proof. reflexivity. Qed.

Example splitext_upper : Py.lower (Py.splitext "a/b.tar.XMILE").2 = ".xmile".
Proof. reflexivity. Qed.

Section Properties.
Context {Engine Num Env : Type}.
Context `{!PySD Engine Num Env, !Runtime Env}.

#[local] Abbreviation World := (World Engine Num Env).
#[local] Abbreviation Body := (Body Num).
#[local] Abbreviation Request := (@Request Num).

Implicit Types (w : World) (id : string) (e : Engine).

(** ** Lookup *)

Lemma get_model_absent w id :
  models w !! id = None → get_model id w = (inl (not_found id), w).
Proof. intros H. unfold get_model. by rewrite H. Qed.

Lemma get_model_present w id e :
  models w !! id = Some e → get_model id w = (inr e, w).
Proof. intros H. unfold get_model. by rewrite H. Qed.

(** What each id-referencing handler does on a present identifier. *)
Lemma run_model_present w id e params cols :
  models w !! id = Some e →
  let r := run e (Py.or_empty params) cols in
  run_model {| rm_modelId := id; rm_params := params; rm_returnColumns := cols |} w
  = (match r.1 with
     | inl m => inl (HTTPException 500 m)
     | inr df => inr (TableBody (to_dict df))
     end,
     {| models := <[id := r.2]> (models w);
        env := env w;
        trace := trace w ++ [CallRun e (Py.or_empty params) cols] |}).
Proof.
  intros H r. unfold_handlers. simpl. rewrite H. simpl. fold r.
  by destruct (r.1).
Qed.

Lemma get_components_present w id e :
  models w !! id = Some e →
  get_components id w
  = (match describe e with
     | inl m => inl (HTTPException 500 m)
     | inr s => inr (StructureBody s)
     end,
     {| models := <[id := e]> (models w);
        env := env w;
        trace := trace w ++ describe_calls e |}).
Proof.
  intros H. unfold_handlers. rewrite H. simpl.
  unfold describe, describe_calls, read_structure.
  destruct (components e) as [m|c]; simpl; [done|].
  destruct (comp_stocks c); simpl;
    [by rewrite ?insert_insert_eq, <- ?app_assoc|].
  destruct (comp_flows c); simpl;
    [by rewrite ?insert_insert_eq, <- ?app_assoc|].
  destruct (comp_auxiliaries c); simpl;
    [by rewrite ?insert_insert_eq, <- ?app_assoc|].
  destruct (comp_constants c); simpl;
    by rewrite ?insert_insert_eq, <- ?app_assoc.
Qed.

Lemma set_parameters_present w id e ps :
  models w !! id = Some e →
  let r := set_components e ps in
  set_parameters {| sp_modelId := id; sp_parameters := ps |} w
  = (match r.1 with
     | inl m => inl (HTTPException 500 m)
     | inr _ => inr (MessageBody "Parameters set successfully")
     end,
     {| models := <[id := r.2]> (models w);
        env := env w;
        trace := trace w ++ [CallSetComponents e ps] |}).
Proof.
  intros H r. unfold_handlers. simpl. rewrite H. simpl. fold r.
  by destruct (r.1).
Qed.

Lemma reset_model_present w id :
  is_Some (models w !! id) →
  reset_model {| rs_modelId := id |} w
  = (inr (MessageBody ("Model '" +:+ id +:+ "' removed from memory")),
     {| models := delete id (models w); env := env w; trace := trace w |}).
Proof.
  intros H. unfold_handlers. simpl. by rewrite bool_decide_eq_true_2.
Qed.

Lemma reset_model_absent w id :
  models w !! id = None →
  reset_model {| rs_modelId := id |} w
  = (inl (HTTPException 404 "Model ID not found"), w).
Proof.
  intros H. unfold_handlers. simpl. rewrite bool_decide_eq_false_2; [done|].
  rewrite H. by intros [? ?].
Qed.

Lemma absent_answers_not_found w id :
  models w !! id = None → answers_not_found w id.
Proof.
  intros H. repeat split.
  - intros. unfold_handlers. simpl. by rewrite H.
  - unfold_handlers. by rewrite H.
  - intros. unfold_handlers. simpl. by rewrite H.
  - by apply reset_model_absent.
Qed.

(** C4. An operation that names a model identifier absent from the
    registry (run, describe structure, set parameters, remove) answers
    404 Not Found and leaves the whole world as it was; the trace of
    engine calls is part of the world, so the engine is not called. *)
Theorem absent_id_is_not_found w id :
  models w !! id = None →
  answers_not_found w id
  ∧ status (inl (not_found id) : exn + Body) = 404
  ∧ status (inl (HTTPException 404 "Model ID not found") : exn + Body) = 404.
Proof.
  intros H. split; [by apply absent_answers_not_found | done].
Qed.

(** ** The table a run returns *)

Section Table.
Context {V : Type}.
Implicit Types (d : Py.dict V) (k : string) (v : V).

Lemma keys_dict_set k v d :
  Py.keys (Py.dict_set k v d)
  = if decide (k ∈ Py.keys d) then Py.keys d else Py.keys d ++ [k].
Proof.
  unfold Py.keys. induction d as [|[k' v'] d IH].
  - destruct (decide (k ∈ ([] : Py.dict V).*1)) as [Hin|_]; [|done].
    by apply elem_of_nil in Hin.
  - cbn [Py.dict_set fmap list_fmap fst].
    destruct (decide (k = k')) as [->|Hne].
    + cbn [fmap list_fmap fst]. clear IH. case_decide as Hin; [done|]. exfalso. apply Hin. by left.
    + cbn [fmap list_fmap fst]. rewrite IH.
      destruct (decide (k ∈ d.*1)) as [Hin|Hnin];
        destruct (decide (k ∈ k' :: d.*1)) as [Hin'|Hnin']; try done.
      * exfalso. apply Hnin'. by right.
      * apply elem_of_cons in Hin' as [?|?]; done.
Qed.


End Table.

(** Appending the new names of [l] to [ks], one at a time. *)
Lemma filter_new_snoc (ks l : list string) k :
  k ∉ ks →
  filter (λ k', k' ∉ ks ++ [k]) l = filter (λ k', k' ∉ ks) (filter (λ k', k' ≠ k) l).
Proof.
  intros Hk. induction l as [|x l IH]; [done|].
  rewrite !filter_cons. destruct (decide (x ≠ k)) as [Hx|Hx].
  - rewrite filter_cons. destruct (decide (x ∉ ks ++ [k])) as [H1|H1].
    + rewrite decide_True; [by rewrite IH |].
      intros ?. apply H1, elem_of_app. by left.
    + rewrite decide_False; [done |].
      intros Hn. apply H1. intros [?|?%list_elem_of_singleton]%elem_of_app; done.
  - rewrite decide_False; [done | ].
    apply dec_stable in Hx. subst x. intros Hn. apply Hn, elem_of_app.
    right. by apply list_elem_of_singleton.
Qed.

Lemma filter_new_known (ks l : list string) k :
  k ∈ ks →
  filter (λ k', k' ∉ ks) (filter (λ k', k' ≠ k) l) = filter (λ k', k' ∉ ks) l.
Proof.
  intros Hk. induction l as [|x l IH]; [done|].
  rewrite !filter_cons. destruct (decide (x ≠ k)) as [Hx|Hx].
  - rewrite filter_cons. by rewrite IH.
  - apply dec_stable in Hx. subst x. rewrite decide_False; [done | by intros ?].
Qed.

Lemma keys_foldl_dict_set {V A} (val : A → V) (d : Py.dict V) (l : list (A * string)) :
  Py.keys (foldl (λ d jk, Py.dict_set jk.2 (val jk.1) d) d l)
  = Py.keys d ++ filter (λ k', k' ∉ Py.keys d) (Py.first_occurrences l.*2).
Proof.
  revert d. induction l as [|[j k] l IH]; intros d; simpl.
  - by rewrite app_nil_r.
  - rewrite IH, keys_dict_set. rewrite filter_cons.
    destruct (decide (k ∈ Py.keys d)) as [Hin|Hnin].
    + rewrite decide_False; [| by intros ?]. by rewrite filter_new_known.
    + rewrite decide_True; [| done].
      rewrite <- app_assoc. simpl. by rewrite filter_new_snoc.
Qed.

Lemma imap_pair_snd {A} (g : nat → nat) (l : list A) :
  (imap (λ j k, (g j, k)) l).*2 = l.
Proof.
  revert g. induction l as [|x l IH]; intros g; simpl; [done|].
  f_equal. apply (IH (g ∘ S)).
Qed.

Lemma filter_not_in_nil (l : list string) : filter (λ k', k' ∉ []) l = l.
Proof.
  induction l as [|x l IH]; [done|].
  rewrite filter_cons, decide_True; [by rewrite IH | by intros ?%elem_of_nil].
Qed.

(** The keys of the returned table are the frame's column labels in
    order of first occurrence. *)
Lemma keys_to_dict (df : DataFrame Num) :
  Py.keys (to_dict df) = Py.first_occurrences (df_columns df).
Proof.
  unfold to_dict.
  rewrite (keys_foldl_dict_set (column_values df)).
  rewrite (imap_pair_snd id). simpl. apply filter_not_in_nil.
Qed.


(** ** Running a model *)

(** C10. A run request that omits the overrides is answered exactly as
    the request that supplies the empty mapping, in every world; on a
    present identifier the engine is called with the empty mapping. *)
Theorem omitted_params_is_empty_params w id cols :
  run_model {| rm_modelId := id; rm_params := None; rm_returnColumns := cols |} w
  = run_model {| rm_modelId := id; rm_params := Some []; rm_returnColumns := cols |} w
  ∧ ∀ e, models w !! id = Some e →
         trace (run_model {| rm_modelId := id; rm_params := None;
                             rm_returnColumns := cols |} w).2
         = trace w ++ [CallRun e [] cols].
Proof.
  split; [done|].
  intros e He. by rewrite (run_model_present w id e None cols He).
Qed.

(** C9. Two consecutive runs of one request with empty overrides give
    the same answer, provided the engine's run leaves the engine object
    as it found it. *)
Theorem run_model_deterministic w id e params cols :
  models w !! id = Some e →
  Py.or_empty params = [] →
  (run e [] cols).2 = e →
  let request := {| rm_modelId := id; rm_params := params;
                    rm_returnColumns := cols |} in
  (run_model request (run_model request w).2).1 = (run_model request w).1
  ∧ models (run_model request w).2 = models w.
Proof.
  intros He Hparams Hpure request. subst request.
  rewrite (run_model_present w id e params cols He).
  rewrite Hparams, Hpure. cbn [snd fst].
  split.
  - erewrite run_model_present; last by (cbn [models]; apply lookup_insert_eq).
    by rewrite Hparams.
  - cbn [models]. by apply insert_id.
Qed.

(** C2 (as the code has it). A run on a present identifier validates
    neither the requested columns nor the overrides: it calls the
    engine's run once, with the overrides (the empty mapping when they
    are omitted or empty) and the requested columns as given; what the
    engine raises is answered with status 500 and the engine's message,
    what it returns is converted to the table. *)
Theorem run_model_forwards_unvalidated w id e params cols :
  models w !! id = Some e →
  let request := {| rm_modelId := id; rm_params := params;
                    rm_returnColumns := cols |} in
  let r := run e (Py.or_empty params) cols in
  trace (run_model request w).2 = trace w ++ [CallRun e (Py.or_empty params) cols]
  ∧ (run_model request w).1
    = match r.1 with
      | inl m => inl (HTTPException 500 m)
      | inr df => inr (TableBody (to_dict df))
      end
  ∧ (is_error (run_model request w).1 = true → status (run_model request w).1 = 500).
Proof.
  intros He request r. subst request.
  rewrite (run_model_present w id e params cols He). fold r.
  cbn [fst snd trace]. repeat split.
  by destruct (r.1).
Qed.





(** ** Creating models *)

(** An upload either fails with status 500 and the registry as it was, or
    succeeds and stores one engine under the drawn identifier. *)
Lemma upload_model_cases f u w :
  let o := upload_model f u w in
  (is_error o.1 = true ∧ status o.1 = 500 ∧ models o.2 = models w)
  ∨ (∃ e, o.1 = inr (ModelIdBody "Model uploaded successfully" u)
          ∧ models o.2 = <[u := e]> (models w)).
Proof.
  unfold_handlers. cbn zeta. case_bool_decide; [by left|].
  destruct_calls; try by left.
  all: case_bool_decide; destruct_calls; try by left.
  all: right; eauto.
Qed.

(** A load either fails with status 400 and the registry as it was, or
    succeeds and stores one engine under the requested identifier (the
    drawn one when none, or the empty one, was requested). *)
Lemma load_model_cases q u w :
  let o := load_model q u w in
  (is_error o.1 = true ∧ status o.1 = 400 ∧ models o.2 = models w)
  ∨ (∃ e, o.1 = inr (ModelIdBody "Model loaded successfully" (Py.or_str (lm_modelId q) u))
          ∧ models o.2 = <[Py.or_str (lm_modelId q) u := e]> (models w)).
Proof.
  unfold_handlers. cbn zeta.
  repeat case_bool_decide; destruct_calls; try by left.
  all: right; eauto.
Qed.

(** C5. A failed upload and a failed load by path leave the registry
    mapping exactly as it was. *)
Theorem failed_creation_keeps_registry :
  (∀ f u w, is_error (upload_model f u w).1 = true →
            models (upload_model f u w).2 = models w)
  ∧ (∀ q u w, is_error (load_model q u w).1 = true →
              models (load_model q u w).2 = models w).
Proof.
  split.
  - intros f u w Herr.
    destruct (upload_model_cases f u w) as [(_ & _ & ?)|(e & Hok & _)]; [done|].
    rewrite Hok in Herr. done.
  - intros q u w Herr.
    destruct (load_model_cases q u w) as [(_ & _ & ?)|(e & Hok & _)]; [done|].
    rewrite Hok in Herr. done.
Qed.

(** C1 (as the code has it). A load by path that requests a non-empty
    identifier already in the registry, names a supported type and
    parses, succeeds: it echoes the identifier and replaces the engine
    stored under it by the newly parsed one, all other entries staying
    as they were. *)
Theorem load_duplicate_id_replaces q u w id e1 env1 :
  lm_modelId q = Some id →
  id ≠ "" →
  is_Some (models w !! id) →
  (lm_fileType q = "vensim" ∧ read_vensim (lm_path q) (env w) = (inr e1, env1))
  ∨ (lm_fileType q = "xmile" ∧ read_xmile (lm_path q) (env w) = (inr e1, env1)) →
  (load_model q u w).1 = inr (ModelIdBody "Model loaded successfully" id)
  ∧ models (load_model q u w).2 = <[id := e1]> (models w).
Proof.
  intros Hid Hne _ Hparse.
  assert (Py.or_str (lm_modelId q) u = id) as Hor.
  { rewrite Hid. destruct id; [done | reflexivity]. }
  unfold_handlers. cbn zeta. rewrite Hor.
  destruct Hparse as [[Hty Hp]|[Hty Hp]]; rewrite Hty.
  - rewrite bool_decide_eq_true_2 by done. by rewrite Hp.
  - rewrite bool_decide_eq_false_2 by done.
    rewrite bool_decide_eq_true_2 by done. by rewrite Hp.
Qed.

(** An upload whose extension is neither [.mdl] nor [.xmile] in any
    letter case answers 500, with the text of the 400 exception raised
    for it as detail, and changes nothing. *)
Lemma upload_unsupported_extension f u w :
  Py.lower (Py.splitext (filename f)).2 ∉ [".mdl"; ".xmile"] →
  upload_model f u w
  = (inl (HTTPException 500
            (str_http 400 "Only .mdl and .xmile files are supported")), w).
Proof.
  intros H. unfold_handlers. cbn zeta. by rewrite bool_decide_eq_true_2.
Qed.

(** The parser an upload calls: the Vensim one exactly for the extension
    [.mdl], the XMILE one exactly for [.xmile], none otherwise or when
    staging the file fails. *)
Lemma upload_parser_choice f u w :
  let suffix := Py.lower (Py.splitext (filename f)).2 in
  let calls := trace (upload_model f u w).2 in
  calls = trace w
  ∨ (∃ p, calls = trace w ++ [CallReadVensim p] ∧ suffix = ".mdl")
  ∨ (∃ p, calls = trace w ++ [CallReadXmile p] ∧ suffix = ".xmile").
Proof.
  unfold_handlers. cbn zeta. case_bool_decide as Hs; [by left|].
  destruct_calls; try by left.
  all: case_bool_decide as Hmdl; destruct_calls.
  all: try (right; left; eexists; split; [reflexivity | done]).
  all: right; right; eexists; split; [reflexivity|].
  all: apply elem_of_cons in Hs as [?|Hs]; [done|].
  all: by apply list_elem_of_singleton in Hs.
Qed.

(** C8. Evaluation at an upload named [model.csv]: the handler raises the
    400 exception for the unsupported extension inside its own [try], the
    [except Exception] clause catches it, and the client is answered
    500; the world is unchanged. *)
Theorem upload_csv_answers_500 content u w :
  upload_model {| filename := "model.csv"; file := content |} u w
  = (inl (HTTPException 500
            (str_http 400 "Only .mdl and .xmile files are supported")), w)
  ∧ status (upload_model {| filename := "model.csv"; file := content |} u w).1
    ≠ 400.
Proof.
  assert (Py.lower (Py.splitext "model.csv").2 ∉ [".mdl"; ".xmile"]) as H.
  { apply (bool_decide_unpack _). by vm_compute. }
  rewrite (upload_unsupported_extension {| filename := "model.csv"; file := content |} u w H).
  split; [done | by cbn].
Qed.

(** ** Removing models *)

(** An identifier absent from the registry stays absent under every
    request that does not store a model under it. *)
Lemma handle_keeps_absent (r : Request) w id :
  models w !! id = None →
  stores_under r ≠ Some id →
  models (handle r w).2 !! id = None.
Proof.
  intros Habs Hst. destruct r as [f u|q u|q|id'|q|q]; cbn [handle stores_under] in *.
  - destruct (upload_model_cases f u w) as [(_ & _ & ->)|(e & _ & ->)]; [done|].
    rewrite lookup_insert_ne; [done | congruence].
  - destruct (load_model_cases q u w) as [(_ & _ & ->)|(e & _ & ->)]; [done|].
    rewrite lookup_insert_ne; [done | congruence].
  - destruct q as [id' params cols].
    destruct (models w !! id') as [e|] eqn:He.
    + rewrite (run_model_present w id' e params cols He). cbn [snd models].
      rewrite lookup_insert_ne; [done | congruence].
    + destruct (absent_answers_not_found w id' He) as (-> & _). done.
  - destruct (models w !! id') as [e|] eqn:He.
    + rewrite (get_components_present w id' e He). cbn [snd models].
      rewrite lookup_insert_ne; [done | congruence].
    + destruct (absent_answers_not_found w id' He) as (_ & -> & _). done.
  - destruct q as [id' ps].
    destruct (models w !! id') as [e|] eqn:He.
    + rewrite (set_parameters_present w id' e ps He). cbn [snd models].
      rewrite lookup_insert_ne; [done | congruence].
    + destruct (absent_answers_not_found w id' He) as (_ & _ & -> & _). done.
  - destruct q as [id'].
    destruct (models w !! id') as [e|] eqn:He.
    + rewrite reset_model_present by (by rewrite He). cbn [snd models].
      apply lookup_delete_None. by right.
    + by rewrite (reset_model_absent w id' He).
Qed.

Lemma handle_all_keeps_absent (rs : list Request) w id :
  models w !! id = None →
  Forall (λ r, stores_under r ≠ Some id) rs →
  models (handle_all rs w) !! id = None.
Proof.
  revert w. induction rs as [|r rs IH]; intros w Habs Hrs; [done|].
  apply Forall_cons in Hrs as [Hr Hrs].
  cbn [handle_all foldl]. apply IH; [|done].
  by apply handle_keeps_absent.
Qed.

(** C6. Once a remove of an identifier has succeeded, then after any
    further requests that do not store a model under that identifier
    again (none at all included), a run, a describe structure and a set
    parameters on it answer 404 Not Found, and so does a second
    remove; none of them changes the world. *)
Theorem removed_id_stays_not_found w id body w' (rs : list Request) :
  reset_model {| rs_modelId := id |} w = (inr body, w') →
  Forall (λ r, stores_under r ≠ Some id) rs →
  answers_not_found (handle_all rs w') id
  ∧ status (inl (not_found id) : exn + Body) = 404
  ∧ status (inl (HTTPException 404 "Model ID not found") : exn + Body) = 404.
Proof.
  intros Hreset Hrs. split; [|done].
  apply absent_answers_not_found, handle_all_keeps_absent; [|done].
  destruct (models w !! id) as [e|] eqn:He.
  - rewrite reset_model_present in Hreset by (by rewrite He).
    injection Hreset as _ <-. cbn [models]. apply lookup_delete_eq.
  - by rewrite (reset_model_absent w id He) in Hreset.
Qed.

(** ** Failure classes and statuses *)

(** A request to which [failure_class] gives a class fails. *)
Lemma failure_class_is_error (r : Request) w c :
  failure_class r w = Some c → is_error (handle r w).1 = true.
Proof.
  destruct r as [f u|q u|[id params cols]|id|[id ps]|[id]];
    cbn [handle failure_class rm_modelId rm_params rm_returnColumns
         sp_modelId sp_parameters rs_modelId].
  - unfold_handlers. cbn zeta. case_bool_decide; [done|].
    destruct_calls; try done.
    all: case_bool_decide; unfold class_of_parse; destruct_calls; done.
  - unfold_handlers. cbn zeta. unfold class_of_parse.
    repeat case_bool_decide; destruct_calls; done.
  - destruct (models w !! id) as [e|] eqn:He.
    + rewrite (run_model_present w id e params cols He). cbn [fst].
      by destruct (run e (Py.or_empty params) cols).1.
    + by destruct (absent_answers_not_found w id He) as (-> & _).
  - destruct (models w !! id) as [e|] eqn:He.
    + rewrite (get_components_present w id e He). cbn [fst].
      by destruct (describe e).
    + by destruct (absent_answers_not_found w id He) as (_ & -> & _).
  - destruct (models w !! id) as [e|] eqn:He.
    + rewrite (set_parameters_present w id e ps He). cbn [fst].
      by destruct (set_components e ps).1.
    + by destruct (absent_answers_not_found w id He) as (_ & _ & -> & _).
  - destruct (models w !! id) as [e|] eqn:He; [done|].
    by rewrite (reset_model_absent w id He).
Qed.

(** The class of a failed creation is one of the two creation classes. *)
Lemma creation_failure_class (r : Request) w c :
  is_Some (stores_under r) →
  failure_class r w = Some c →
  c = UnsupportedFormat ∨ c = ParseError.
Proof.
  destruct r as [f u|q u|?|?|?|?]; cbn [stores_under]; try by intros [? ?].
  - intros _. cbn [failure_class]. cbn zeta. unfold class_of_parse.
    case_bool_decide; [intros [= <-]; by left|].
    destruct_calls; try done.
    all: case_bool_decide; destruct_calls; try done.
    all: intros [= <-]; by right.
  - intros _. cbn [failure_class]. unfold class_of_parse.
    repeat case_bool_decide; destruct_calls; try done.
    all: intros [= <-]; auto.
Qed.

(** The status with which each class of failure is answered. *)
Lemma status_of_failure_class (r : Request) w c :
  failure_class r w = Some c →
  match c with
  | NotFound => status (handle r w).1 = 404
  | EngineFailure => status (handle r w).1 = 500
  | UnsupportedFormat | ParseError =>
      status (handle r w).1 = 400 ∨ status (handle r w).1 = 500
  | DuplicateId | InvalidOverride => False
  end.
Proof.
  intros Hc. pose proof (failure_class_is_error r w c Hc) as Herr.
  destruct r as [f u|q u|[id params cols]|id|[id ps]|[id]].
  - destruct (creation_failure_class (ReqUpload f u) w c) as [->| ->];
      [by eexists | done | |].
    all: cbn [handle] in *.
    all: destruct (upload_model_cases f u w) as [(_ & -> & _)|(e & Hok & _)];
      [by right | by rewrite Hok in Herr].
  - destruct (creation_failure_class (ReqLoad q u) w c) as [->| ->];
      [by eexists | done | |].
    all: cbn [handle] in *.
    all: destruct (load_model_cases q u w) as [(_ & -> & _)|(e & Hok & _)];
      [by left | by rewrite Hok in Herr].
  - cbn [handle failure_class rm_modelId rm_params rm_returnColumns] in *.
    destruct (models w !! id) as [e|] eqn:He.
    + rewrite (run_model_present w id e params cols He). cbn [fst].
      destruct (run e (Py.or_empty params) cols).1; [|done].
      by injection Hc as <-.
    + injection Hc as <-.
      by destruct (absent_answers_not_found w id He) as (-> & _).
  - cbn [handle failure_class] in *.
    destruct (models w !! id) as [e|] eqn:He.
    + rewrite (get_components_present w id e He). cbn [fst].
      destruct (describe e); [|done]. by injection Hc as <-.
    + injection Hc as <-.
      by destruct (absent_answers_not_found w id He) as (_ & -> & _).
  - cbn [handle failure_class sp_modelId sp_parameters] in *.
    destruct (models w !! id) as [e|] eqn:He.
    + rewrite (set_parameters_present w id e ps He). cbn [fst].
      destruct (set_components e ps).1; [|done]. by injection Hc as <-.
    + injection Hc as <-.
      by destruct (absent_answers_not_found w id He) as (_ & _ & -> & _).
  - cbn [handle failure_class rs_modelId] in *.
    destruct (models w !! id) as [e|] eqn:He; [done|].
    injection Hc as <-. by rewrite (reset_model_absent w id He).
Qed.

(** C3 (as the code has it). A failure of class NotFound and a failure
    of any other class are answered with different statuses: 404 for
    the first, 400 or 500 for the second.  Every failure of a load by
    path is answered with 400, whatever its class. *)
Theorem not_found_status_is_distinct (r1 r2 : Request) w1 w2 c2 :
  failure_class r1 w1 = Some NotFound →
  failure_class r2 w2 = Some c2 →
  c2 ≠ NotFound →
  status (handle r1 w1).1 = 404
  ∧ (status (handle r2 w2).1 = 400 ∨ status (handle r2 w2).1 = 500)
  ∧ status (handle r2 w2).1 ≠ status (handle r1 w1).1
  ∧ (∀ q u w, is_error (load_model q u w).1 = true →
              status (load_model q u w).1 = 400).
Proof.
  intros H1 H2 Hne.
  pose proof (status_of_failure_class r1 w1 NotFound H1) as S1.
  pose proof (status_of_failure_class r2 w2 c2 H2) as S2.
  cbn in S1.
  assert (status (handle r2 w2).1 = 400 ∨ status (handle r2 w2).1 = 500) as S2'.
  { destruct c2; try done. by right. }
  split_and!; [done | done | |].
  - rewrite S1. by destruct S2' as [-> | ->].
  - intros q u w Herr.
    destruct (load_model_cases q u w) as [(_ & ? & _)|(e & Hok & _)]; [done|].
    by rewrite Hok in Herr.
Qed.

End Properties.

(** * Further properties of the handlers *)

(** ** File names *)

Lemma substring_all (p : string) : String.substring 0 (String.length p) p = p.
Proof. induction p as [|c p IH]; cbn; [done | by rewrite IH]. Qed.

Lemma substring_split (p : string) (n : nat) :
  String.substring 0 n p +:+ String.substring n (String.length p - n) p = p.
Proof.
  revert n. induction p as [|c p IH]; intros [|n].
  - done.
  - done.
  - cbn. by rewrite substring_all.
  - cbn.
    change (String c (String.substring 0 n p
                      +:+ String.substring n (String.length p - n) p)
            = String c p).
    by rewrite IH.
Qed.

(** X13. Splitting a path into root and extension loses nothing: the
    root followed by the extension is the path. *)
Theorem splitext_join (p : string) :
  (Py.splitext p).1 +:+ (Py.splitext p).2 = p.
Proof.
  unfold Py.splitext. cbn zeta.
  destruct (_ && _); cbn [fst snd].
  - unfold Py.slice_to, Py.slice_from. apply substring_split.
  - induction p as [|c p IH]; [done|].
    change (String c (p +:+ "") = String c p). by rewrite IH.
Qed.

Lemma rfind_from_absent (p : string) (c : ascii) (i last : Z) :
  c ∉ list_ascii_of_string p → Py.rfind_from p c i last = last.
Proof.
  revert i last. induction p as [|a p IH]; intros i last Hc; cbn; [done|].
  cbn in Hc. apply not_elem_of_cons in Hc as [Hne Hc].
  rewrite IH by done. destruct (Ascii.eqb_spec a c); [congruence | done].
Qed.

Lemma rfind_from_lower_bound (p : string) (c : ascii) (i last : Z) :
  (-1 ≤ last)%Z → (0 ≤ i)%Z → (-1 ≤ Py.rfind_from p c i last)%Z.
Proof.
  revert i last. induction p as [|a p IH]; intros i last Hl Hi; cbn; [done|].
  apply IH; [|lia]. destruct (Ascii.eqb a c); lia.
Qed.

(** A path with no dot has the empty extension. *)
Lemma splitext_no_dot (p : string) :
  "."%char ∉ list_ascii_of_string p → Py.splitext p = (p, "").
Proof.
  intros Hc. unfold Py.splitext, Py.rfind. cbn zeta.
  rewrite (rfind_from_absent p "." 0 (-1) Hc).
  pose proof (rfind_from_lower_bound p "/" 0 (-1)) as Hs.
  destruct (-1 >? Py.rfind_from p "/" 0 (-1)) eqn:Hgt; [|done].
  apply Z.gtb_lt in Hgt. lia.
Qed.

(** ** The table of a frame *)

Lemma elem_of_first_occurrences (l : list string) k :
  k ∈ Py.first_occurrences l ↔ k ∈ l.
Proof.
  induction l as [|x l IH]; cbn; [done|].
  rewrite !elem_of_cons, list_elem_of_filter, IH. split.
  - intros [?|[_ ?]]; auto.
  - intros [?|?]; destruct (decide (k = x)); auto.
Qed.

Lemma NoDup_first_occurrences (l : list string) :
  NoDup (Py.first_occurrences l).
Proof.
  induction l as [|x l IH]; cbn; [constructor|].
  apply NoDup_cons. split.
  - rewrite list_elem_of_filter. by intros [? _].
  - by apply NoDup_filter.
Qed.

Lemma dict_set_fresh {V} (k : string) (v : V) (d : Py.dict V) :
  k ∉ Py.keys d → Py.dict_set k v d = d ++ [(k, v)].
Proof.
  unfold Py.keys. induction d as [|[k' v'] d IH]; cbn; [done|].
  intros [Hne Hd]%not_elem_of_cons.
  rewrite decide_False by done. by rewrite IH.
Qed.

Lemma foldl_dict_set_fresh {V} (val : nat → V) (g : nat → nat)
    (d : Py.dict V) (l : list string) :
  NoDup l →
  (∀ k, k ∈ l → k ∉ Py.keys d) →
  foldl (λ d jk, Py.dict_set jk.2 (val jk.1) d) d (imap (λ j k, (g j, k)) l)
  = d ++ imap (λ j k, (k, val (g j))) l.
Proof.
  revert d g. induction l as [|x l IH]; intros d g Hnd Hfresh; cbn.
  - by rewrite app_nil_r.
  - apply NoDup_cons in Hnd as [Hx Hnd].
    rewrite dict_set_fresh by (apply Hfresh; by left).
    rewrite (IH _ (g ∘ S)); [by rewrite <- app_assoc | done |].
    intros k Hk. unfold Py.keys. rewrite fmap_app. cbn.
    intros [Hin|Hin%list_elem_of_singleton]%elem_of_app.
    + apply (Hfresh k); [by right | done].
    + by subst.
Qed.

Section Lifecycle.
Context {Engine Num Env : Type}.
Context `{!PySD Engine Num Env, !Runtime Env}.

#[local] Abbreviation World := (World Engine Num Env).
#[local] Abbreviation Body := (Body Num).
#[local] Abbreviation Request := (@Request Num).

Implicit Types (w : World) (id : string) (e : Engine).

(** ** Creation *)

(** X1. A successful upload went through every step: the temporary
    directory was made, the bytes were written to the file name joined to
    it, that path was parsed once, by the Vensim parser for the extension
    [.mdl] and by the XMILE parser for [.xmile] (letter case ignored),
    and the engine was stored under the drawn identifier; every other
    entry of the registry is as before. *)
Theorem upload_success_inversion f u w body w' :
  upload_model f u w = (inr body, w') →
  let suffix := Py.lower (Py.splitext (filename f)).2 in
  ∃ temp_dir env1 env2 e,
    let p := path_join temp_dir (filename f) in
    mkdtemp (env w) = (inr temp_dir, env1)
    ∧ write_file p (file f) env1 = (inr (), env2)
    ∧ ((suffix = ".mdl" ∧ read_vensim p env2 = (inr e, env w')
        ∧ trace w' = trace w ++ [CallReadVensim p])
       ∨ (suffix = ".xmile" ∧ read_xmile p env2 = (inr e, env w')
          ∧ trace w' = trace w ++ [CallReadXmile p]))
    ∧ body = ModelIdBody "Model uploaded successfully" u
    ∧ models w' = <[u := e]> (models w)
    ∧ ∀ id, id ≠ u → models w' !! id = models w !! id.
Proof.
  unfold_handlers. cbn zeta. case_bool_decide as Hs; [done|].
  destruct (mkdtemp (env w)) as [[m|temp_dir] env1] eqn:Hmk; [done|].
  cbn [fst snd models env trace].
  destruct (write_file _ _ env1) as [[m|[]] env2] eqn:Hwr; [done|].
  cbn [fst snd models env trace].
  case_bool_decide as Hmdl; cbn [fst snd models env trace].
  - destruct (read_vensim _ env2) as [[m|e] env3] eqn:Hp; [done|].
    cbn [fst snd models env trace]. intros [= <- <-].
    exists temp_dir, env1, env2, e. cbn [models env trace].
    split_and!; try done; [by left|].
    intros id Hne. by rewrite lookup_insert_ne.
  - destruct (read_xmile _ env2) as [[m|e] env3] eqn:Hp; [done|].
    cbn [fst snd models env trace]. intros [= <- <-].
    exists temp_dir, env1, env2, e. cbn [models env trace].
    split_and!; try done.
    + right. split; [|done].
      apply elem_of_cons in Hs as [?|Hs]; [done|].
      by apply list_elem_of_singleton in Hs.
    + intros id Hne. by rewrite lookup_insert_ne.
Qed.

(** X2. A successful load named exactly ["vensim"] or ["xmile"] as its
    type, parsed the given path once with that parser, and stored the
    engine under the requested identifier, or under the drawn one when
    the request carried none or the empty string; every other entry of
    the registry is as before. *)
Theorem load_success_inversion q u w body w' :
  load_model q u w = (inr body, w') →
  let id := Py.or_str (lm_modelId q) u in
  ∃ e,
    ((lm_fileType q = "vensim" ∧ read_vensim (lm_path q) (env w) = (inr e, env w')
      ∧ trace w' = trace w ++ [CallReadVensim (lm_path q)])
     ∨ (lm_fileType q = "xmile" ∧ read_xmile (lm_path q) (env w) = (inr e, env w')
        ∧ trace w' = trace w ++ [CallReadXmile (lm_path q)]))
    ∧ body = ModelIdBody "Model loaded successfully" id
    ∧ models w' = <[id := e]> (models w)
    ∧ ∀ id', id' ≠ id → models w' !! id' = models w !! id'.
Proof.
  unfold_handlers. cbn zeta.
  case_bool_decide as Hv; [|case_bool_decide as Hx]; cbn [fst snd models env trace].
  - destruct (read_vensim _ (env w)) as [[m|e] env1] eqn:Hp; [done|].
    cbn [fst snd models env trace]. intros [= <- <-].
    exists e. cbn [models env trace]. split_and!; try done; [by left|].
    intros id' Hne. by rewrite lookup_insert_ne.
  - destruct (read_xmile _ (env w)) as [[m|e] env1] eqn:Hp; [done|].
    cbn [fst snd models env trace]. intros [= <- <-].
    exists e. cbn [models env trace]. split_and!; try done; [by right|].
    intros id' Hne. by rewrite lookup_insert_ne.
  - done.
Qed.

(** A request that creates a model and succeeds leaves an engine under
    the identifier it stores under. *)
Lemma creation_stores (r : Request) w id body :
  stores_under r = Some id →
  (handle r w).1 = inr body →
  body = ModelIdBody (match r with
                      | ReqUpload _ _ => "Model uploaded successfully"
                      | _ => "Model loaded successfully"
                      end) id
  ∧ ∃ e, models (handle r w).2 = <[id := e]> (models w).
Proof.
  destruct r as [f u|q u|?|?|?|?]; cbn [stores_under handle]; try done.
  - intros [= <-] Hok.
    destruct (upload_model_cases f u w) as [(Herr & _)|(e & Hb & Hm)].
    + by rewrite Hok in Herr.
    + rewrite Hok in Hb. injection Hb as ->. eauto.
  - intros [= <-] Hok.
    destruct (load_model_cases q u w) as [(Herr & _)|(e & Hb & Hm)].
    + by rewrite Hok in Herr.
    + rewrite Hok in Hb. injection Hb as ->. eauto.
Qed.

(** X4. Creating a model under an identifier the registry did not have
    and then removing that identifier gives back the registry as it was
    before the creation. *)
Theorem create_then_reset_restores_registry (r : Request) w id body :
  stores_under r = Some id →
  models w !! id = None →
  (handle r w).1 = inr body →
  models (reset_model {| rs_modelId := id |} (handle r w).2).2 = models w.
Proof.
  intros Hst Habs Hok.
  destruct (creation_stores r w id body Hst Hok) as (_ & e & Hm).
  rewrite reset_model_present.
  - cbn [snd models]. rewrite Hm. by apply delete_insert_id.
  - rewrite Hm, lookup_insert_eq. by eexists.
Qed.

(** ** Operations on a stored model *)

(** X5. A run that follows a set parameters on the same identifier is
    the engine's run on the engine object as [set_components] left it,
    whether or not [set_components] raised; the two engine calls are the
    only ones made. *)
Theorem set_parameters_then_run w id e ps params cols :
  models w !! id = Some e →
  let e' := (set_components e ps).2 in
  let w1 := (set_parameters {| sp_modelId := id; sp_parameters := ps |} w).2 in
  let request := {| rm_modelId := id; rm_params := params;
                    rm_returnColumns := cols |} in
  (run_model request w1).1
  = match (run e' (Py.or_empty params) cols).1 with
    | inl m => inl (HTTPException 500 m)
    | inr df => inr (TableBody (to_dict df))
    end
  ∧ trace (run_model request w1).2
    = trace w ++ [CallSetComponents e ps; CallRun e' (Py.or_empty params) cols].
Proof.
  intros He e' w1 request. subst w1 request.
  rewrite (set_parameters_present w id e ps He). cbn [snd]. fold e'.
  erewrite run_model_present; last by (cbn [models]; apply lookup_insert_eq).
  cbn [fst snd trace]. split; [done|]. by rewrite <- app_assoc.
Qed.

(** What a run, a describe structure and a set parameters do to the
    registry: nothing, or a new engine state under the identifier they
    name, which was present. *)
Lemma engine_request_registry (r : Request) w id :
  match r with
  | ReqRun q => rm_modelId q = id
  | ReqComponents id' => id' = id
  | ReqSetParameters q => sp_modelId q = id
  | _ => False
  end →
  env (handle r w).2 = env w
  ∧ (models (handle r w).2 = models w
     ∨ ∃ e e', models w !! id = Some e
               ∧ models (handle r w).2 = <[id := e']> (models w)).
Proof.
  destruct r as [?|?|[id' params cols]|id'|[id' ps]|?]; cbn [handle]; try done.
  all: cbn [rm_modelId sp_modelId]; intros ->.
  all: destruct (models w !! id) as [e|] eqn:He.
  - rewrite (run_model_present w id e params cols He). cbn [snd models env].
    split; [done|]. right. eauto.
  - destruct (absent_answers_not_found w id He) as (-> & _). cbn. auto.
  - rewrite (get_components_present w id e He). cbn [snd models env].
    split; [done|]. right. eauto.
  - destruct (absent_answers_not_found w id He) as (_ & -> & _). cbn. auto.
  - rewrite (set_parameters_present w id e ps He). cbn [snd models env].
    split; [done|]. right. eauto.
  - destruct (absent_answers_not_found w id He) as (_ & _ & -> & _). cbn. auto.
Qed.

Lemma engine_request_frame (r : Request) w id :
  match r with
  | ReqRun q => rm_modelId q = id
  | ReqComponents id' => id' = id
  | ReqSetParameters q => sp_modelId q = id
  | _ => False
  end →
  dom (models (handle r w).2) = dom (models w)
  ∧ env (handle r w).2 = env w
  ∧ ∀ id', id' ≠ id → models (handle r w).2 !! id' = models w !! id'.
Proof.
  intros Hr. destruct (engine_request_registry r w id Hr)
    as (Henv & [-> | (e & e' & He & ->)]); [done|].
  split_and!; [|done|].
  - rewrite dom_insert_L. apply subseteq_union_1_L, singleton_subseteq_l.
    by apply elem_of_dom_2 in He.
  - intros id' Hne. by rewrite lookup_insert_ne.
Qed.

(** X6. A run, a describe structure and a set parameters neither add an
    identifier to the registry nor remove one, leave the file-system
    environment alone, and leave the engine of every identifier other
    than the one they name as it was. *)
Theorem engine_requests_keep_ids w :
  (∀ q : RunModelRequest Num,
     dom (models (run_model q w).2) = dom (models w)
     ∧ env (run_model q w).2 = env w
     ∧ ∀ id', id' ≠ rm_modelId q → models (run_model q w).2 !! id' = models w !! id')
  ∧ (∀ id,
       dom (models (get_components id w).2) = dom (models w)
       ∧ env (get_components id w).2 = env w
       ∧ ∀ id', id' ≠ id → models (get_components id w).2 !! id' = models w !! id')
  ∧ (∀ q : SetParametersRequest Num,
       dom (models (set_parameters q w).2) = dom (models w)
       ∧ env (set_parameters q w).2 = env w
       ∧ ∀ id', id' ≠ sp_modelId q →
                models (set_parameters q w).2 !! id' = models w !! id').
Proof.
  split_and!.
  - intros q. by apply (engine_request_frame (ReqRun q) w (rm_modelId q)).
  - intros id. by apply (engine_request_frame (ReqComponents id) w id).
  - intros q. by apply (engine_request_frame (ReqSetParameters q) w (sp_modelId q)).
Qed.

(** X7. A successful remove deletes the entry of the identifier it
    names, found present, and nothing else: every other entry, the
    environment and the trace of engine calls are as before. *)
Theorem reset_success_frame q w body w' :
  reset_model q w = (inr body, w') →
  is_Some (models w !! rs_modelId q)
  ∧ body = MessageBody ("Model '" +:+ rs_modelId q +:+ "' removed from memory")
  ∧ models w' !! rs_modelId q = None
  ∧ (∀ id', id' ≠ rs_modelId q → models w' !! id' = models w !! id')
  ∧ env w' = env w
  ∧ trace w' = trace w.
Proof.
  destruct q as [id]. cbn [rs_modelId].
  destruct (models w !! id) as [e|] eqn:He.
  - rewrite reset_model_present by (by rewrite He). intros [= <- <-].
    cbn [models env trace]. split_and!; try done.
    + apply lookup_delete_eq.
    + intros id' Hne. by apply lookup_delete_ne.
  - by rewrite (reset_model_absent w id He).
Qed.

(** ** Answers *)

(** X8. The statuses each handler can answer with: an upload 200 or 500,
    never 400 or 404; a load 200 or 400; a run, a describe structure and
    a set parameters 200, 404 or 500; a remove 200 or 404. *)
Theorem handler_statuses (r : Request) w :
  let s := status (handle r w).1 in
  match r with
  | ReqUpload _ _ => s = 200 ∨ s = 500
  | ReqLoad _ _ => s = 200 ∨ s = 400
  | ReqRun _ | ReqComponents _ | ReqSetParameters _ => s = 200 ∨ s = 404 ∨ s = 500
  | ReqReset _ => s = 200 ∨ s = 404
  end.
Proof.
  destruct r as [f u|q u|[id params cols]|id|[id ps]|[id]]; cbn [handle].
  - destruct (upload_model_cases f u w) as [(_ & -> & _)|(e & -> & _)]; auto.
  - destruct (load_model_cases q u w) as [(_ & -> & _)|(e & -> & _)]; auto.
  - destruct (models w !! id) as [e|] eqn:He.
    + rewrite (run_model_present w id e params cols He). cbn [fst].
      destruct (run e (Py.or_empty params) cols).1; cbn; auto.
    + destruct (absent_answers_not_found w id He) as (-> & _). cbn. auto.
  - destruct (models w !! id) as [e|] eqn:He.
    + rewrite (get_components_present w id e He). cbn [fst].
      destruct (describe e); cbn; auto.
    + destruct (absent_answers_not_found w id He) as (_ & -> & _). cbn. auto.
  - destruct (models w !! id) as [e|] eqn:He.
    + rewrite (set_parameters_present w id e ps He). cbn [fst].
      destruct (set_components e ps).1; cbn; auto.
    + destruct (absent_answers_not_found w id He) as (_ & _ & -> & _). cbn. auto.
  - destruct (models w !! id) as [e|] eqn:He.
    + rewrite reset_model_present by (by rewrite He). cbn. auto.
    + rewrite (reset_model_absent w id He). cbn. auto.
Qed.

(** X9. A load whose declared type is neither ["vensim"] nor ["xmile"],
    compared exactly, is answered 400 with the text of the exception
    raised for it; no parser is called and the world is unchanged. *)
Theorem load_unsupported_type q u w :
  lm_fileType q ≠ "vensim" →
  lm_fileType q ≠ "xmile" →
  load_model q u w
  = (inl (HTTPException 400 (str_http 400 "Unsupported fileType")), w).
Proof.
  intros Hv Hx. unfold_handlers. cbn zeta.
  by rewrite !bool_decide_eq_false_2.
Qed.

(** ** Engine calls *)

Lemma load_model_trace q u w :
  trace (load_model q u w).2 = trace w
  ∨ trace (load_model q u w).2 = trace w ++ [CallReadVensim (lm_path q)]
  ∨ trace (load_model q u w).2 = trace w ++ [CallReadXmile (lm_path q)].
Proof.
  unfold_handlers. cbn zeta.
  repeat case_bool_decide; destruct_calls; auto.
Qed.

Lemma describe_calls_length (e : Engine) :
  (1 ≤ length (describe_calls e) ≤ 5)%nat.
Proof.
  unfold describe_calls. destruct (components e) as [m|c]; cbn; [lia|].
  destruct (comp_stocks c); cbn; [lia|].
  destruct (comp_flows c); cbn; [lia|].
  destruct (comp_auxiliaries c); cbn; lia.
Qed.

(** The calls one request makes into the engine are appended to the
    trace, and are no more than [max_calls] allows. *)
Lemma handle_trace (r : Request) w :
  ∃ calls, trace (handle r w).2 = trace w ++ calls
           ∧ (length calls ≤ max_calls r)%nat.
Proof.
  destruct r as [f u|q u|[id params cols]|id|[id ps]|[id]]; cbn [handle max_calls].
  - destruct (upload_parser_choice f u w) as [-> | [(p & -> & _) | (p & -> & _)]].
    + exists []. rewrite app_nil_r. split; [done | cbn; lia].
    + eexists. split; [done | cbn; lia].
    + eexists. split; [done | cbn; lia].
  - destruct (load_model_trace q u w) as [-> | [-> | ->]].
    + exists []. rewrite app_nil_r. split; [done | cbn; lia].
    + eexists. split; [done | cbn; lia].
    + eexists. split; [done | cbn; lia].
  - destruct (models w !! id) as [e|] eqn:He.
    + rewrite (run_model_present w id e params cols He). eexists. split; [done | cbn; lia].
    + destruct (absent_answers_not_found w id He) as (-> & _).
      exists []. rewrite app_nil_r. split; [done | cbn; lia].
  - destruct (models w !! id) as [e|] eqn:He.
    + rewrite (get_components_present w id e He). eexists. split; [done|].
      apply describe_calls_length.
    + destruct (absent_answers_not_found w id He) as (_ & -> & _).
      exists []. rewrite app_nil_r. split; [done | cbn; lia].
  - destruct (models w !! id) as [e|] eqn:He.
    + rewrite (set_parameters_present w id e ps He). eexists. split; [done | cbn; lia].
    + destruct (absent_answers_not_found w id He) as (_ & _ & -> & _).
      exists []. rewrite app_nil_r. split; [done | cbn; lia].
  - destruct (models w !! id) as [e|] eqn:He.
    + rewrite reset_model_present by (by rewrite He).
      exists []. rewrite app_nil_r. split; [done | cbn; lia].
    + rewrite (reset_model_absent w id He).
      exists []. rewrite app_nil_r. split; [done | cbn; lia].
Qed.

(** X10. The trace of engine calls only grows.  A request appends at
    most one call, except a describe structure, which appends at most
    five (reading [engine.components] and its four attributes), and a
    remove, which appends none; a describe structure on a present
    identifier always makes at least the first of its reads.  After a
    session the trace is the trace before followed by at most the sum of
    these bounds. *)
Theorem session_trace_grows (rs : list Request) w :
  (∃ calls, trace (handle_all rs w) = trace w ++ calls
            ∧ (length calls ≤ sum_list (max_calls <$> rs))%nat)
  ∧ ∀ id e, models w !! id = Some e →
            trace (get_components id w).2 = trace w ++ describe_calls e
            ∧ (1 ≤ length (describe_calls e) ≤ 5)%nat.
Proof.
  split.
  - revert w. induction rs as [|r rs IH]; intros w.
    + exists []. rewrite app_nil_r. split; [done | cbn; lia].
    + cbn [handle_all foldl].
      destruct (handle_trace r w) as (c1 & H1 & L1).
      destruct (IH (handle r w).2) as (c2 & H2 & L2).
      exists (c1 ++ c2). unfold handle_all in H2. rewrite H2, H1.
      rewrite <- app_assoc. split; [done|].
      rewrite length_app, fmap_cons. cbn [sum_list_with].
      change (id (max_calls r)) with (max_calls r). lia.
  - intros id e He. rewrite (get_components_present w id e He).
    split; [done | apply describe_calls_length].
Qed.

(** ** Sessions *)

(** X11. An identifier found in the registry after a session was in it
    before the session or is the identifier under which some creation
    request of the session stores. *)
Theorem ids_come_from_creations (rs : list Request) w id :
  is_Some (models (handle_all rs w) !! id) →
  is_Some (models w !! id) ∨ ∃ r, r ∈ rs ∧ stores_under r = Some id.
Proof.
  intros Hpresent.
  destruct (models w !! id) as [e|] eqn:He; [left; by eexists|]. right.
  destruct (decide (Forall (λ r : Request, stores_under r ≠ Some id) rs))
    as [Hall|Hex].
  - rewrite (handle_all_keeps_absent rs w id He Hall) in Hpresent.
    by destruct Hpresent.
  - apply not_Forall_Exists in Hex; [|apply _].
    apply Exists_exists in Hex as (r & Hr & Hst). exists r. split; [done|].
    cbn in Hst. by apply dec_stable in Hst.
Qed.

(** A model stays in the registry under every request other than the
    remove of its identifier. *)
Lemma handle_keeps_present (r : Request) w id :
  is_Some (models w !! id) →
  r ≠ ReqReset {| rs_modelId := id |} →
  is_Some (models (handle r w).2 !! id).
Proof.
  intros Hp Hr. destruct r as [f u|q u|q|id'|q|[id']].
  - cbn [handle]. destruct (upload_model_cases f u w) as [(_ & _ & ->)|(e & _ & ->)];
      [done|]. apply lookup_insert_is_Some'. by right.
  - cbn [handle]. destruct (load_model_cases q u w) as [(_ & _ & ->)|(e & _ & ->)];
      [done|]. apply lookup_insert_is_Some'. by right.
  - destruct (engine_request_registry (ReqRun q) w (rm_modelId q) eq_refl)
      as (_ & [-> | (e & e' & _ & ->)]); [done|].
    apply lookup_insert_is_Some'. by right.
  - destruct (engine_request_registry (ReqComponents id') w id' eq_refl)
      as (_ & [-> | (e & e' & _ & ->)]); [done|].
    apply lookup_insert_is_Some'. by right.
  - destruct (engine_request_registry (ReqSetParameters q) w (sp_modelId q) eq_refl)
      as (_ & [-> | (e & e' & _ & ->)]); [done|].
    apply lookup_insert_is_Some'. by right.
  - cbn [handle]. destruct (models w !! id') as [e|] eqn:He.
    + rewrite reset_model_present by (by rewrite He). cbn [snd models].
      rewrite lookup_delete_ne; [done|]. congruence.
    + by rewrite (reset_model_absent w id' He).
Qed.

Lemma handle_all_keeps_present (rs : list Request) w id :
  is_Some (models w !! id) →
  Forall (λ r, r ≠ ReqReset {| rs_modelId := id |}) rs →
  is_Some (models (handle_all rs w) !! id).
Proof.
  revert w. induction rs as [|r rs IH]; intros w Hp Hrs; [done|].
  apply Forall_cons in Hrs as [Hr Hrs].
  cbn [handle_all foldl]. apply IH; [|done].
  by apply handle_keeps_present.
Qed.

(** X3. The identifier a successful upload or load answers with names a
    model from then on, until it is removed: after any further requests
    that hold no remove of it (none at all included), a run, a describe
    structure and a set parameters on it do not answer 404, and a remove
    of it succeeds. *)
Theorem created_model_is_usable (r : Request) w id body (rs : list Request) :
  stores_under r = Some id →
  (handle r w).1 = inr body →
  Forall (λ r', r' ≠ ReqReset {| rs_modelId := id |}) rs →
  let w' := handle_all rs (handle r w).2 in
  body = ModelIdBody (match r with
                      | ReqUpload _ _ => "Model uploaded successfully"
                      | _ => "Model loaded successfully"
                      end) id
  ∧ (∀ params cols,
       status (run_model {| rm_modelId := id; rm_params := params;
                            rm_returnColumns := cols |} w').1 ≠ 404)
  ∧ status (get_components id w').1 ≠ 404
  ∧ (∀ ps, status (set_parameters {| sp_modelId := id; sp_parameters := ps |} w').1
           ≠ 404)
  ∧ is_error (reset_model {| rs_modelId := id |} w').1 = false.
Proof.
  intros Hst Hok Hrs w'. subst w'.
  destruct (creation_stores r w id body Hst Hok) as (Hb & e0 & Hm).
  assert (is_Some (models (handle_all rs (handle r w).2) !! id)) as [e He].
  { apply handle_all_keeps_present; [|done].
    rewrite Hm, lookup_insert_eq. by eexists. }
  split_and!; [done | | | |].
  - intros params cols. rewrite (run_model_present _ id e params cols He).
    cbn [fst]. by destruct (run e (Py.or_empty params) cols).1.
  - rewrite (get_components_present _ id e He). cbn [fst].
    by destruct (describe e).
  - intros ps. rewrite (set_parameters_present _ id e ps He). cbn [fst].
    by destruct (set_components e ps).1.
  - rewrite reset_model_present; [done | by rewrite He].
Qed.

(** X12. Nothing evicts a model: an identifier in the registry is still
    in it after any session that holds no remove of that identifier. *)
Theorem no_implicit_eviction (rs : list Request) w id :
  is_Some (models w !! id) →
  Forall (λ r, r ≠ ReqReset {| rs_modelId := id |}) rs →
  is_Some (models (handle_all rs w) !! id).
Proof.
  revert w. induction rs as [|r rs IH]; intros w Hp Hrs; [done|].
  apply Forall_cons in Hrs as [Hr Hrs].
  cbn [handle_all foldl]. apply IH; [|done].
  by apply handle_keeps_present.
Qed.

(** X17. A request that is answered with an error adds no identifier to
    the registry and removes none. *)
Theorem failed_request_keeps_ids (r : Request) w :
  is_error (handle r w).1 = true →
  dom (models (handle r w).2) = dom (models w).
Proof.
  intros Herr. destruct r as [f u|q u|q|id|q|[id]].
  - cbn [handle] in *.
    destruct (upload_model_cases f u w) as [(_ & _ & ->)|(e & Hok & _)]; [done|].
    by rewrite Hok in Herr.
  - cbn [handle] in *.
    destruct (load_model_cases q u w) as [(_ & _ & ->)|(e & Hok & _)]; [done|].
    by rewrite Hok in Herr.
  - by apply (engine_request_frame (ReqRun q) w (rm_modelId q)).
  - by apply (engine_request_frame (ReqComponents id) w id).
  - by apply (engine_request_frame (ReqSetParameters q) w (sp_modelId q)).
  - cbn [handle] in *. destruct (models w !! id) as [e|] eqn:He.
    + rewrite reset_model_present in Herr by (by rewrite He). done.
    + by rewrite (reset_model_absent w id He).
Qed.

(** ** Tables and file names *)

(** X14. The table has one entry for each distinct column label of the
    frame: its keys are without repetition and are exactly the labels
    that occur among the frame's columns. *)
Theorem to_dict_keys_distinct (df : DataFrame Num) :
  NoDup (Py.keys (to_dict df))
  ∧ ∀ k, k ∈ Py.keys (to_dict df) ↔ k ∈ df_columns df.
Proof.
  rewrite keys_to_dict. split.
  - apply NoDup_first_occurrences.
  - intros k. apply elem_of_first_occurrences.
Qed.

(** X15. For a frame whose column labels are pairwise different, the
    table lists the columns in the frame's order, each label with the
    cells of its own column from the first row to the last. *)
Theorem to_dict_unique_columns (df : DataFrame Num) :
  NoDup (df_columns df) →
  to_dict df = imap (λ j k, (k, column_values df j)) (df_columns df).
Proof.
  intros Hnd.
  exact (foldl_dict_set_fresh (column_values df) id [] (df_columns df) Hnd
           (λ k _, not_elem_of_nil k)).
Qed.

(** X16. An upload whose file name has no dot at all is answered 500
    like any unsupported extension, with the text of the 400 exception
    raised for it as detail; nothing is staged, parsed or stored. *)
Theorem upload_without_dot_rejected f u w :
  "."%char ∉ list_ascii_of_string (filename f) →
  upload_model f u w
  = (inl (HTTPException 500
            (str_http 400 "Only .mdl and .xmile files are supported")), w).
Proof.
  intros Hc. apply upload_unsupported_extension.
  rewrite (splitext_no_dot _ Hc). cbn.
  intros [H|[H|H]%elem_of_cons]%elem_of_cons; try done.
  by apply elem_of_nil in H.
Qed.

End Lifecycle.

(** * The properties at concrete inputs, on the demonstration engine *)

Section Concrete.
Import Demo.

#[local] Abbreviation demo_world := (World Z Z ()).
#[local] Abbreviation demo_body := (Body Z).
#[local] Abbreviation demo_request := (@Request Z).

(** ** Instances of the theorems *)

Lemma absent_id_is_not_found_witness :
  models one_model !! "ghost" = None
  ∧ answers_not_found one_model "ghost"
  ∧ status (inl (not_found "ghost") : exn + demo_body) = 404.
Proof.
  assert (models one_model !! "ghost" = None) as H by (by vm_compute).
  split; [exact H|].
  destruct (absent_id_is_not_found one_model "ghost" H) as (Ha & Hs & _).
  by split.
Defined.

Lemma removed_id_stays_not_found_witness :
  let later : list demo_request :=
    [ReqUpload {| filename := "teacup.mdl"; file := "" |} "m2";
     ReqRun {| rm_modelId := "m2"; rm_params := None; rm_returnColumns := None |}] in
  answers_not_found
    (handle_all later (reset_model {| rs_modelId := "m" |} one_model).2) "m".
Proof.
  intros later.
  apply (removed_id_stays_not_found one_model "m"
           (MessageBody "Model 'm' removed from memory")
           (reset_model {| rs_modelId := "m" |} one_model).2 later).
  - by vm_compute.
  - repeat constructor; by vm_compute.
Defined.

Lemma failed_creation_keeps_registry_witness :
  models (upload_model {| filename := "notes.txt"; file := "" |} "u" one_model).2
  = models one_model
  ∧ models (load_model {| lm_path := ""; lm_fileType := "vensim";
                          lm_modelId := Some "m" |} "u" one_model).2
    = models one_model.
Proof.
  split.
  - apply (proj1 failed_creation_keeps_registry). by vm_compute.
  - apply (proj2 failed_creation_keeps_registry). by vm_compute.
Defined.

Lemma run_model_deterministic_witness :
  let request : RunModelRequest Z :=
    {| rm_modelId := "m"; rm_params := Some [];
       rm_returnColumns := Some ["X"] |} in
  (run_model request (run_model request one_model).2).1
  = (run_model request one_model).1.
Proof.
  intros request.
  apply (run_model_deterministic one_model "m" 5 (Some []) (Some ["X"])).
  - by vm_compute.
  - reflexivity.
  - reflexivity.
Defined.

Lemma omitted_params_is_empty_params_witness :
  trace (run_model {| rm_modelId := "m"; rm_params := None;
                      rm_returnColumns := Some ["X"] |} one_model).2
  = trace one_model ++ [CallRun 5 [] (Some ["X"])].
Proof.
  apply (proj2 (omitted_params_is_empty_params one_model "m" (Some ["X"]))).
  by vm_compute.
Defined.

Lemma load_duplicate_id_replaces_witness :
  let q := {| lm_path := "teacup.mdl"; lm_fileType := "vensim";
              lm_modelId := Some "m" |} in
  (load_model q "u" one_model).1 = inr (ModelIdBody "Model loaded successfully" "m")
  ∧ models (load_model q "u" one_model).2 = <["m" := 10]> (models one_model).
Proof.
  intros q.
  apply (load_duplicate_id_replaces q "u" one_model "m" 10 ()).
  - reflexivity.
  - done.
  - exists 5. by vm_compute.
  - left. split; reflexivity.
Defined.

Lemma run_model_forwards_unvalidated_witness :
  let request : RunModelRequest Z :=
    {| rm_modelId := "m"; rm_params := None;
       rm_returnColumns := Some ["nope"] |} in
  trace (run_model request one_model).2
  = trace one_model ++ [CallRun 5 [] (Some ["nope"])]
  ∧ (is_error (run_model request one_model).1 = true →
     status (run_model request one_model).1 = 500).
Proof.
  intros request.
  destruct (run_model_forwards_unvalidated one_model "m" 5 None (Some ["nope"]))
    as (Ht & _ & Hs); [by vm_compute|].
  by split.
Defined.


Lemma not_found_status_is_distinct_witness :
  let r1 : demo_request :=
    ReqRun {| rm_modelId := "ghost"; rm_params := None; rm_returnColumns := None |} in
  let r2 : demo_request :=
    ReqLoad {| lm_path := "data.csv"; lm_fileType := "csv"; lm_modelId := None |} "u" in
  status (handle r1 one_model).1 = 404
  ∧ status (handle r2 one_model).1 ≠ status (handle r1 one_model).1.
Proof.
  intros r1 r2.
  destruct (not_found_status_is_distinct r1 r2 one_model one_model UnsupportedFormat)
    as (H1 & _ & H2 & _); [by vm_compute | by vm_compute | done |].
  by split.
Defined.

(** ** Inputs at which the specification's sentences fail *)

(** C1. A load that requests the identifier of a model already in the
    registry does not fail: it succeeds and the engine stored under the
    identifier is a different one afterwards. *)
Lemma load_duplicate_id_overwrites :
  let q := {| lm_path := "teacup.mdl"; lm_fileType := "vensim";
              lm_modelId := Some "m" |} in
  models one_model !! "m" = Some 5
  ∧ is_error (load_model q "u" one_model).1 = false
  ∧ models (load_model q "u" one_model).2 !! "m" = Some 10
  ∧ models (load_model q "u" one_model).2 !! "m" ≠ models one_model !! "m".
Proof. by vm_compute. Qed.

(** C2. A run that requests a column the model's structure does not
    have is not rejected before the engine: the engine's run is called
    with that column, and its exception is answered with status 500. *)
Lemma run_unknown_column_reaches_engine :
  let request : RunModelRequest Z :=
    {| rm_modelId := "m"; rm_params := None;
       rm_returnColumns := Some ["nope"] |} in
  models one_model !! "m" = Some 5
  ∧ describe (5 : Z) = inr demo_structure
  ∧ ("nope" ∉ structure_names demo_structure)
  ∧ trace one_model = []
  ∧ trace (run_model request one_model).2 = [CallRun 5 [] (Some ["nope"])]
  ∧ (run_model request one_model).1 = inl (HTTPException 500 "unknown column").
Proof.
  intros request. split_and!; try by vm_compute.
  apply (bool_decide_unpack _). by vm_compute.
Qed.

(** C3. Two loads failing with different classes, an unsupported
    declared type and a parse error, are both answered with status
    400. *)
Lemma load_failures_share_status :
  let r1 : demo_request :=
    ReqLoad {| lm_path := "data.csv"; lm_fileType := "csv"; lm_modelId := None |} "u" in
  let r2 : demo_request :=
    ReqLoad {| lm_path := ""; lm_fileType := "vensim"; lm_modelId := None |} "u" in
  failure_class r1 empty_world = Some UnsupportedFormat
  ∧ failure_class r2 empty_world = Some ParseError
  ∧ status (handle r1 empty_world).1 = 400
  ∧ status (handle r2 empty_world).1 = 400.
Proof. by vm_compute. Qed.

End Concrete.

(** * The further properties at concrete inputs *)

Section LifecycleConcrete.
Import Demo.

#[local] Abbreviation demo_request := (@Request Z).

Lemma upload_success_inversion_witness :
  ∃ temp_dir e,
    trace (upload_model {| filename := "Teacup.MDL"; file := "" |} "u1" one_model).2
    = trace one_model ++ [CallReadVensim (path_join temp_dir "Teacup.MDL")]
    ∧ models (upload_model {| filename := "Teacup.MDL"; file := "" |} "u1" one_model).2 = <["u1" := e]> (models one_model).
Proof.
  destruct (upload_success_inversion {| filename := "Teacup.MDL"; file := "" |} "u1" one_model
              (ModelIdBody "Model uploaded successfully" "u1")
              (upload_model {| filename := "Teacup.MDL"; file := "" |} "u1" one_model).2)
    as (temp_dir & env1 & env2 & e & _ & _ & Hp & _ & Hm & _); [by vm_compute|].
  exists temp_dir, e. split; [|done].
  destruct Hp as [(_ & _ & Ht)|(Hs & _)]; [done|].
  by vm_compute in Hs.
Defined.

Lemma load_success_inversion_witness :
  let q := {| lm_path := "teacup.xmile"; lm_fileType := "xmile";
              lm_modelId := Some "" |} in
  ∃ e, models (load_model q "u1" one_model).2 = <["u1" := e]> (models one_model).
Proof.
  intros q.
  destruct (load_success_inversion q "u1" one_model
              (ModelIdBody "Model loaded successfully" "u1")
              (load_model q "u1" one_model).2)
    as (e & _ & _ & Hm & _); [by vm_compute|].
  by exists e.
Defined.

Lemma created_model_is_usable_witness :
  let r : demo_request := ReqUpload {| filename := "Teacup.MDL"; file := "" |} "u1" in
  let later : list demo_request :=
    [ReqSetParameters {| sp_modelId := "u1"; sp_parameters := [("rate", 3)] |};
     ReqReset {| rs_modelId := "m" |};
     ReqLoad {| lm_path := "teacup.xmile"; lm_fileType := "xmile";
                lm_modelId := None |} "u2"] in
  is_error (reset_model {| rs_modelId := "u1" |}
              (handle_all later (handle r one_model).2)).1 = false.
Proof.
  intros r later.
  apply (created_model_is_usable r one_model "u1"
           (ModelIdBody "Model uploaded successfully" "u1") later).
  - reflexivity.
  - by vm_compute.
  - repeat constructor; done.
Defined.

Lemma create_then_reset_restores_registry_witness :
  let r : demo_request :=
    ReqLoad {| lm_path := "teacup.mdl"; lm_fileType := "vensim";
               lm_modelId := Some "m2" |} "u1" in
  models (reset_model {| rs_modelId := "m2" |} (handle r one_model).2).2
  = models one_model.
Proof.
  intros r.
  apply (create_then_reset_restores_registry r one_model "m2"
           (ModelIdBody "Model loaded successfully" "m2")).
  - reflexivity.
  - by vm_compute.
  - by vm_compute.
Defined.

Lemma set_parameters_then_run_witness :
  let w1 := (set_parameters {| sp_modelId := "m"; sp_parameters := [("rate", 7)] |}
               one_model).2 in
  (run_model {| rm_modelId := "m"; rm_params := None; rm_returnColumns := None |} w1).1
  = inr (TableBody (to_dict (demo_frame 7 ["X"; "rate"]))).
Proof.
  intros w1.
  apply (proj1 (set_parameters_then_run one_model "m" 5 [("rate", 7)] None None
                  ltac:(by vm_compute))).
Defined.

Lemma reset_success_frame_witness :
  models (reset_model {| rs_modelId := "m" |} one_model).2 !! "m" = None
  ∧ trace (reset_model {| rs_modelId := "m" |} one_model).2 = trace one_model.
Proof.
  destruct (reset_success_frame {| rs_modelId := "m" |} one_model
              (MessageBody "Model 'm' removed from memory")
              (reset_model {| rs_modelId := "m" |} one_model).2)
    as (_ & _ & Hm & _ & _ & Ht); [by vm_compute|].
  by split.
Defined.

Lemma load_unsupported_type_witness :
  let q := {| lm_path := "teacup.mdl"; lm_fileType := "Vensim";
              lm_modelId := None |} in
  load_model q "u1" one_model
  = (inl (HTTPException 400 "400: Unsupported fileType"), one_model).
Proof.
  intros q.
  exact (load_unsupported_type q "u1" one_model ltac:(done) ltac:(done)).
Defined.

Lemma session_trace_grows_witness :
  trace (get_components "m" one_model).2
  = trace one_model ++ describe_calls (5 : Z)
  ∧ (1 ≤ length (describe_calls (5 : Z)) ≤ 5)%nat.
Proof.
  apply (proj2 (session_trace_grows [] one_model) "m" 5). by vm_compute.
Defined.

Lemma ids_come_from_creations_witness :
  let rs : list demo_request :=
    [ReqUpload {| filename := "Teacup.MDL"; file := "" |} "u1";
     ReqReset {| rs_modelId := "m" |}] in
  is_Some (models one_model !! "u1")
  ∨ ∃ r, r ∈ rs ∧ stores_under r = Some "u1".
Proof.
  intros rs. apply (ids_come_from_creations rs one_model "u1").
  exists 25. by vm_compute.
Defined.

Lemma no_implicit_eviction_witness :
  let rs : list demo_request :=
    [ReqUpload {| filename := "Teacup.MDL"; file := "" |} "u1";
     ReqRun {| rm_modelId := "m"; rm_params := None; rm_returnColumns := Some ["bad"] |};
     ReqReset {| rs_modelId := "u1" |}] in
  is_Some (models (handle_all rs one_model) !! "m").
Proof.
  intros rs. apply (no_implicit_eviction rs one_model "m").
  - exists 5. by vm_compute.
  - repeat constructor; done.
Defined.

Lemma to_dict_unique_columns_witness :
  to_dict (demo_frame 5 ["rate"; "X"]) = [("rate", [5; 5; 5]); ("X", [0; 5; 10])].
Proof.
  rewrite (to_dict_unique_columns (demo_frame 5 ["rate"; "X"])); [reflexivity|].
  apply (bool_decide_unpack _). by vm_compute.
Defined.

Lemma upload_without_dot_rejected_witness :
  upload_model {| filename := "teacup_mdl"; file := "{UTF-8}" |} "u1" one_model
  = (inl (HTTPException 500 "400: Only .mdl and .xmile files are supported"),
     one_model).
Proof.
  refine (upload_without_dot_rejected
            {| filename := "teacup_mdl"; file := "{UTF-8}" |} "u1" one_model _).
  apply (bool_decide_unpack _). by vm_compute.
Defined.

Lemma failed_request_keeps_ids_witness :
  let r : demo_request :=
    ReqSetParameters {| sp_modelId := "m"; sp_parameters := [("growth", 1)] |} in
  dom (models (handle r one_model).2) = dom (models one_model).
Proof.
  intros r. apply (failed_request_keeps_ids r one_model). by vm_compute.
Defined.

End LifecycleConcrete.
